(** * verify_loading.py: the loading-screen capture script

    The script drives a headless browser through Playwright: it opens the
    lounge at a local address, waits for the loader text, saves a screenshot
    and closes the browser.  Everything it does is a call into Playwright or
    [print], so the embedding is a small state-and-exception monad over a
    world (file system, terminal, browser-side resources, call log) and an
    environment that answers the calls (browser engine and web server). *)

From stdpp Require Import gmap strings list.
From Stdlib.Strings Require Import Byte.

Local Open Scope string_scope.
Local Open Scope list_scope.

(** ** Exceptions and results *)

(** What an awaited call can raise.  Playwright has [Error] and its subclass
    [TimeoutError]; the constructors tell the raising call apart. *)
Inductive error : Type :=
  | DriverError       (* async_playwright() could not start its driver *)
  | LaunchError       (* chromium.launch() *)
  | PageError         (* browser.new_page() *)
  | ConnectionError   (* page.goto(): net::ERR_CONNECTION_REFUSED *)
  | TimeoutError      (* page.wait_for_selector(): TimeoutError *)
  | ScreenshotError   (* page.screenshot() *)
  | CloseError.       (* browser.close() *)

Inductive result (A : Type) : Type :=
  | Ok (a : A)
  | Raise (e : error).
Arguments Ok {A} a.
Arguments Raise {A} e.

(** ** The call log *)

Inductive call : Type :=
  | Start                              (* entering  async with async_playwright() *)
  | Launch                             (* p.chromium.launch() *)
  | NewPage                            (* browser.new_page() *)
  | Goto (url : string)                (* page.goto(url) *)
  | WaitForSelector (selector : string)(* page.wait_for_selector(selector) *)
  | Screenshot (path : string)         (* page.screenshot(path=path) *)
  | PrintLine (line : string)          (* print(line) *)
  | Close                              (* browser.close() *)
  | Stop.                              (* leaving   async with async_playwright() *)

Inductive outcome : Type :=
  | Returned
  | Raised (e : error).

Definition entry : Type := call * outcome.

#[global] Instance error_eq_dec : EqDecision error.
Proof. solve_decision. Defined.
#[global] Instance call_eq_dec : EqDecision call.
Proof. solve_decision. Defined.
#[global] Instance outcome_eq_dec : EqDecision outcome.
Proof. solve_decision. Defined.
#[global] Instance result_eq_dec {A : Type} `{EqDecision A} : EqDecision (result A).
Proof. solve_decision. Defined.

(** ** The environment: browser engine and web server *)

(** Times are in milliseconds. *)
Record Env : Type := {
  (* the engine *)
  driver_starts : bool;
  launches      : bool;
  opens_page    : bool;
  captures      : string -> option (list byte);
      (* the bytes of the image of a screenshot saved at the path;
         None: the call raises *)
  closes        : bool;
  polls         : list N;
      (* the moments at which a wait looks at the page, counted from its start *)
  (* the network and the server behind it *)
  listening     : string -> bool;
      (* does anything accept connections at the URL *)
  loads_at      : string -> option N;
      (* when the document at the URL has loaded, counted from the start of
         the navigation; None: never *)
  visible_at    : string -> string -> N -> bool
      (* is an element matching the selector visible on the document served at
         the URL at this moment, counted from the start of the wait *)
}.

(** The timeout of [goto] and of [wait_for_selector] when the caller passes
    none, as the script does. *)
Definition default_timeout : N := 30000.

(** ** The world the process runs in *)

(** Resources held on the browser side, most recent first. *)
Inductive handle : Type :=
  | Driver      (* the Playwright driver process *)
  | Browser     (* a browser process *)
  | Page.       (* a page of a browser *)

#[global] Instance handle_eq_dec : EqDecision handle.
Proof. solve_decision. Defined.

Record World : Type := {
  files    : gmap string (list byte);
  stdout   : list string;
  stderr   : list error;            (* tracebacks of uncaught exceptions *)
  handles  : list handle;
  location : option string;         (* the document the page shows *)
  log      : list entry;
  argv     : list string;
  environ  : gmap string string
}.

Definition with_files (f : gmap string (list byte)) (w : World) : World :=
  {| files := f; stdout := stdout w; stderr := stderr w; handles := handles w;
     location := location w; log := log w; argv := argv w; environ := environ w |}.
Definition with_stdout (o : list string) (w : World) : World :=
  {| files := files w; stdout := o; stderr := stderr w; handles := handles w;
     location := location w; log := log w; argv := argv w; environ := environ w |}.
Definition with_stderr (e : list error) (w : World) : World :=
  {| files := files w; stdout := stdout w; stderr := e; handles := handles w;
     location := location w; log := log w; argv := argv w; environ := environ w |}.
Definition with_handles (h : list handle) (w : World) : World :=
  {| files := files w; stdout := stdout w; stderr := stderr w; handles := h;
     location := location w; log := log w; argv := argv w; environ := environ w |}.
Definition with_location (l : option string) (w : World) : World :=
  {| files := files w; stdout := stdout w; stderr := stderr w; handles := handles w;
     location := l; log := log w; argv := argv w; environ := environ w |}.
Definition with_log (t : list entry) (w : World) : World :=
  {| files := files w; stdout := stdout w; stderr := stderr w; handles := handles w;
     location := location w; log := t; argv := argv w; environ := environ w |}.

Definition logged (c : call) (o : outcome) (w : World) : World :=
  with_log (log w ++ [(c, o)]) w.

(** Closing a browser ends its pages and the browser process itself. *)
Fixpoint close_browser (hs : list handle) : list handle :=
  match hs with
  | Page :: hs' => close_browser hs'
  | Browser :: hs' => hs'
  | _ => hs
  end.

(** Stopping the driver ends every browser launched through it, with their
    pages, and the driver process. *)
Fixpoint stop_driver (hs : list handle) : list handle :=
  match hs with
  | [] => []
  | Driver :: hs' => hs'
  | _ :: hs' => stop_driver hs'
  end.

(** ** The monad of awaited calls *)

Definition M (A : Type) : Type := Env -> World -> result A * World.

#[global] Instance M_ret : MRet M := fun A a _ w => (Ok a, w).

#[global] Instance M_bind : MBind M := fun A B k m env w =>
  match m env w with
  | (Ok a, w') => k a env w'
  | (Raise e, w') => (Raise e, w')
  end.

(** A call that touches the world by [ok] when the environment lets it
    succeed and raises [e] otherwise; either way it is logged. *)
Definition awaited {A : Type} (c : call) (answer : option A) (e : error)
    (ok : World -> World) : M A :=
  fun _ w =>
    match answer with
    | Some a => (Ok a, logged c Returned (ok w))
    | None => (Raise e, logged c (Raised e) w)
    end.

Definition granted (b : bool) : option unit := if b then Some tt else None.

(** ** Playwright, as the script uses it *)

Inductive browser_obj : Type := TheBrowser.
Inductive page_obj : Type := ThePage.

Definition chromium_launch : M browser_obj :=
  fun env =>
    awaited Launch (if launches env then Some TheBrowser else None) LaunchError
      (fun w => with_handles (Browser :: handles w) w) env.

Definition new_page (b : browser_obj) : M page_obj :=
  fun env =>
    awaited NewPage (if opens_page env then Some ThePage else None) PageError
      (fun w => with_location None (with_handles (Page :: handles w) w)) env.

(** Has the document at the URL loaded before the timeout runs out. *)
Definition loaded_in_time (env : Env) (url : string) (timeout : N) : bool :=
  match loads_at env url with
  | Some t => (t <=? timeout)%N
  | None => false
  end.

(** The navigation is refused when nothing listens at the URL; it returns
    when the document has loaded, and times out when that takes too long. *)
Definition goto (p : page_obj) (url : string) : M unit :=
  fun env =>
    if listening env url then
      awaited (Goto url) (granted (loaded_in_time env url default_timeout))
        TimeoutError (with_location (Some url)) env
    else awaited (Goto url) None ConnectionError (fun w => w) env.

(** Does a wait see an element matching the selector: it must be visible at
    one of the moments the wait looks at the page, before the timeout has run
    out.  A page that has not navigated shows none. *)
Definition seen_at_a_poll (env : Env) (doc : option string) (selector : string)
    (timeout : N) : bool :=
  match doc with
  | Some url =>
      existsb (fun t => (t <? timeout)%N && visible_at env url selector t) (polls env)
  | None => false
  end.

Definition wait_for_selector (p : page_obj) (selector : string) : M unit :=
  fun env w =>
    awaited (WaitForSelector selector)
      (granted (seen_at_a_poll env (location w) selector default_timeout))
      TimeoutError (fun w => w) env w.

(** The bytes of the image are written to the path as the engine gives
    them, replacing a file that is there. *)
Definition screenshot (p : page_obj) (path : string) : M unit :=
  fun env =>
    match captures env path with
    | Some data =>
        awaited (Screenshot path) (Some tt) ScreenshotError
          (fun w => with_files (<[path := data]> (files w)) w) env
    | None => awaited (Screenshot path) None ScreenshotError (fun w => w) env
    end.

Definition print (line : string) : M unit :=
  fun _ w => (Ok tt, logged (PrintLine line) Returned (with_stdout (stdout w ++ [line]) w)).

Definition close (b : browser_obj) : M unit :=
  fun env =>
    awaited Close (granted (closes env)) CloseError
      (fun w => with_handles (close_browser (handles w)) w) env.

(** [async with async_playwright() as p: body].  Entering starts the driver;
    the block is left through [__aexit__] however the body ends, which stops
    the driver, and an exception of the body goes on to the caller. *)
Definition async_with_playwright {A : Type} (body : M A) : M A :=
  fun env w =>
    if driver_starts env then
      let '(r, w') := body env (logged Start Returned (with_handles (Driver :: handles w) w)) in
      (r, logged Stop Returned (with_handles (stop_driver (handles w')) w'))
    else (Raise DriverError, logged Start (Raised DriverError) w).

(** ** The script *)

Definition run : M unit :=
  async_with_playwright (
    browser ← chromium_launch;
    page ← new_page browser;
    goto page "http://localhost:8081";;
    (* Wait for the loader to appear (it should be immediate) *)
    wait_for_selector page "text=LOADING";;
    screenshot page "loading_verification.png";;
    print "Captured loading_verification.png";;
    close browser).

(** [asyncio.run(run())] at module level: the process ends with status 0
    when [run] returns, and with a traceback and status 1 when it raises. *)
Definition main (env : Env) (w : World) : Z * World :=
  match run env w with
  | (Ok _, w') => (0%Z, w')
  | (Raise e, w') => (1%Z, with_stderr (stderr w' ++ [e]) w')
  end.

(** ** The three literals of the script, and the line it prints *)

Definition target_url : string := "http://localhost:8081".
Definition loader_selector : string := "text=LOADING".
Definition output_path : string := "loading_verification.png".
Definition confirmation : string := "Captured loading_verification.png".

(** ** Some environments and the world of a fresh process *)

Definition boot : World :=
  {| files := ∅; stdout := []; stderr := []; handles := []; location := None;
     log := []; argv := ["verify_loading.py"]; environ := ∅ |}.

(** The first bytes of a PNG image: the signature and the head of the
    first chunk. *)
Definition sample_image : list byte :=
  [x89; x50; x4e; x47; x0d; x0a; x1a; x0a; x00; x00; x00; x0d; x49; x48; x44; x52].

(** The moments [0], [gap], [2 * gap], ... below [count * gap]. *)
Definition every (gap : N) (count : nat) : list N :=
  (fun k => (gap * N.of_nat k)%N) <$> seq 0 count.

(** The lounge is served at the address, loads in a fifth of a second and
    shows its loader from the start; a wait looks at the page every tenth of
    a second. *)
Definition lounge_up : Env :=
  {| driver_starts := true; launches := true; opens_page := true;
     captures := fun _ => Some sample_image;
     closes := true;
     polls := every 100 300;
     listening := fun url => String.eqb url "http://localhost:8081";
     loads_at := fun url =>
       if String.eqb url "http://localhost:8081" then Some 200%N else None;
     visible_at := fun url sel _ =>
       String.eqb url "http://localhost:8081" && String.eqb sel "text=LOADING" |}.

Definition with_engine (start launch page close : bool)
    (shot : string -> option (list byte)) (env : Env) : Env :=
  {| driver_starts := start; launches := launch; opens_page := page;
     captures := shot; closes := close; polls := polls env;
     listening := listening env; loads_at := loads_at env;
     visible_at := visible_at env |}.

Definition with_server (up : string -> bool) (loaded : string -> option N)
    (loader : string -> string -> N -> bool) (env : Env) : Env :=
  {| driver_starts := driver_starts env; launches := launches env;
     opens_page := opens_page env; captures := captures env; closes := closes env;
     polls := polls env;
     listening := up; loads_at := loaded; visible_at := loader |}.


(** Nothing listens at the address. *)
Definition lounge_down : Env :=
  with_server (fun _ => false) (fun _ => None) (fun _ _ _ => false) lounge_up.
(** Connections are accepted at the address but no document ever loads, so
    there is nothing to see. *)
Definition lounge_hangs : Env :=
  with_server (listening lounge_up) (fun _ => None) (fun _ _ _ => false) lounge_up.
(** The page is served but never shows the loader text. *)
Definition no_loader : Env :=
  with_server (listening lounge_up) (loads_at lounge_up) (fun _ _ _ => false) lounge_up.
(** The loader text shows up a millisecond after the timeout. *)
Definition late_loader : Env :=
  with_server (listening lounge_up) (loads_at lounge_up)
    (fun _ _ t => (30001 <=? t)%N) lounge_up.
(** Another server: it answers at every address and shows the loader from a
    quarter of a second into the wait. *)
Definition lounge_slow : Env :=
  with_server (fun _ => true) (fun _ => Some 1500%N)
    (fun _ _ t => (250 <=? t)%N) lounge_up.
(** No driver. *)
Definition no_driver : Env := with_engine false true true true (captures lounge_up) lounge_up.
(** No browser to launch. *)
Definition no_chromium : Env := with_engine true false true true (captures lounge_up) lounge_up.
(** The browser launches but cannot open a page. *)
Definition no_page : Env := with_engine true true false true (captures lounge_up) lounge_up.
(** The screenshot cannot be taken or saved. *)
Definition no_capture : Env := with_engine true true true true (fun _ => None) lounge_up.
(** The browser fails to close. *)
Definition stuck_browser : Env := with_engine true true true false (captures lounge_up) lounge_up.

(** * Notions the statements use *)

(** The world a run leaves behind: it has logged [t] and left the files
    [f], the terminal lines [out] and the document [loc]; nothing else of
    the world it started from has changed. *)
Definition settled (w : World) (t : list entry) (f : gmap string (list byte))
    (out : list string) (loc : option string) : World :=
  {| files := f; stdout := out; stderr := stderr w; handles := handles w;
     location := loc; log := log w ++ t; argv := argv w; environ := environ w |}.

(** Does the page at the address load before the navigation times out. *)
Definition page_loads (env : Env) : bool :=
  loaded_in_time env target_url default_timeout.

(** Does the wait see the loader on the page at the address before it times
    out. *)
Definition loader_shows (env : Env) : bool :=
  seen_at_a_poll env (Some target_url) loader_selector default_timeout.

(** The calls before the first one that can make a difference. *)
Definition opening : list entry :=
  [(Start, Returned); (Launch, Returned); (NewPage, Returned)].

(** The calls a run adds to the log, and how it ends. *)
Definition trace (env : Env) : list entry := log (run env boot).2.
Definition verdict (env : Env) : result unit := (run env boot).1.

(** The six steps of the routine: acquire a browser, open a page, navigate,
    wait for the selector, write the screenshot, release the browser. *)
Definition is_step (c : call) : bool :=
  match c with
  | Launch | NewPage | Goto _ | WaitForSelector _ | Screenshot _ | Close => true
  | Start | PrintLine _ | Stop => false
  end.

Definition six_steps : list call :=
  [Launch; NewPage; Goto target_url; WaitForSelector loader_selector;
   Screenshot output_path; Close].

Definition steps (t : list entry) : list call := filter (fun c => is_step c = true) (t.*1).

(** Once a call has raised, no step follows it in the log. *)
Fixpoint in_order (t : list entry) : bool :=
  match t with
  | [] => true
  | (_, Returned) :: t' => in_order t'
  | (_, Raised _) :: t' => forallb (fun e => negb (is_step e.1)) t' && in_order t'
  end.


(** The browser and its page are there for the routine to use. *)
Definition acquires (env : Env) : Prop :=
  driver_starts env = true /\ launches env = true /\ opens_page env = true.

(** The server answers at the address. *)
Definition reachable (env : Env) : Prop := listening env target_url = true.

(** The page at the address shows the loader text at some moment within
    the default timeout. *)
Definition loader_in_time (env : Env) : Prop :=
  exists t, (t <= default_timeout)%N /\ visible_at env target_url loader_selector t = true.

(** The loader text is on the page at one of the moments the wait looks at
    it, before the timeout has run out. *)
Definition loader_seen (env : Env) : Prop :=
  exists t, t ∈ polls env /\ (t < default_timeout)%N /\
    visible_at env target_url loader_selector t = true.

(** The document at the address loads within the default timeout. *)
Definition loaded (env : Env) : Prop :=
  exists t, loads_at env target_url = Some t /\ (t <= default_timeout)%N.




(** The script run once per environment, one process after the other, on
    the same machine. *)
Fixpoint runs (envs : list Env) (w : World) : World :=
  match envs with
  | [] => w
  | env :: rest => runs rest (main env w).2
  end.

(** The errors raised by the calls of a log. *)
Definition raises (t : list entry) : list error :=
  omap (fun e : entry => match e.2 with Raised err => Some err | Returned => None end) t.

(** A call that takes an address, a selector or a path takes the one the
    script spells out. *)
Definition uses_literals (c : call) : Prop :=
  match c with
  | Goto url => url = target_url
  | WaitForSelector selector => selector = loader_selector
  | Screenshot path => path = output_path
  | PrintLine line => line = confirmation
  | Start | Launch | NewPage | Close | Stop => True
  end.

#[global] Instance uses_literals_dec (c : call) : Decision (uses_literals c).
Proof. destruct c; cbn; apply _. Defined.


(** Each call of the script with the one that comes after it. *)
Definition handoffs : list (call * call) :=
  [ (Start, Launch); (Launch, NewPage); (NewPage, Goto target_url);
    (Goto target_url, WaitForSelector loader_selector);
    (WaitForSelector loader_selector, Screenshot output_path);
    (Screenshot output_path, PrintLine confirmation);
    (PrintLine confirmation, Close) ].

(** The ways a run can go: how it ends and what it has logged by then. *)
Definition courses : list (result unit * list entry) :=
  [ (Raise DriverError, [(Start, Raised DriverError)]);
    (Raise LaunchError,
     [(Start, Returned); (Launch, Raised LaunchError); (Stop, Returned)]);
    (Raise PageError,
     [(Start, Returned); (Launch, Returned); (NewPage, Raised PageError);
      (Stop, Returned)]);
    (Raise ConnectionError,
     opening ++ [(Goto target_url, Raised ConnectionError); (Stop, Returned)]);
    (Raise TimeoutError,
     opening ++ [(Goto target_url, Raised TimeoutError); (Stop, Returned)]);
    (Raise TimeoutError,
     opening ++ [(Goto target_url, Returned);
                 (WaitForSelector loader_selector, Raised TimeoutError);
                 (Stop, Returned)]);
    (Raise ScreenshotError,
     opening ++ [(Goto target_url, Returned);
                 (WaitForSelector loader_selector, Returned);
                 (Screenshot output_path, Raised ScreenshotError);
                 (Stop, Returned)]);
    (Raise CloseError,
     opening ++ [(Goto target_url, Returned);
                 (WaitForSelector loader_selector, Returned);
                 (Screenshot output_path, Returned);
                 (PrintLine confirmation, Returned);
                 (Close, Raised CloseError); (Stop, Returned)]);
    (Ok tt,
     opening ++ [(Goto target_url, Returned);
                 (WaitForSelector loader_selector, Returned);
                 (Screenshot output_path, Returned);
                 (PrintLine confirmation, Returned);
                 (Close, Returned); (Stop, Returned)]) ].

(** * The run, path by path *)

(** On a world given by its fields the updates compute; what is left to see
    is that the log grew by the same entries. *)
Ltac tidy :=
  cbv [settled logged with_log with_handles with_location with_files with_stdout
       files stdout stderr handles location log argv environ
       stop_driver close_browser fst snd];
  rewrite <- ?app_assoc; reflexivity.

Lemma run_unfold (env : Env) (w : World) :
  run env w =
    if driver_starts env then
      if launches env then
        if opens_page env then
          if listening env target_url then
           if page_loads env then
            if loader_shows env then
              match captures env output_path with
              | Some data =>
                  let saved := <[output_path := data]> (files w) in
                  let shown := stdout w ++ [confirmation] in
                  let upto :=
                    opening ++
                    [(Goto target_url, Returned);
                     (WaitForSelector loader_selector, Returned);
                     (Screenshot output_path, Returned);
                     (PrintLine confirmation, Returned)] in
                  if closes env then
                    (Ok tt, settled w (upto ++ [(Close, Returned); (Stop, Returned)])
                              saved shown (Some target_url))
                  else
                    (Raise CloseError,
                     settled w (upto ++ [(Close, Raised CloseError); (Stop, Returned)])
                       saved shown (Some target_url))
              | None =>
                  (Raise ScreenshotError,
                   settled w (opening ++
                              [(Goto target_url, Returned);
                               (WaitForSelector loader_selector, Returned);
                               (Screenshot output_path, Raised ScreenshotError);
                               (Stop, Returned)])
                     (files w) (stdout w) (Some target_url))
              end
            else
              (Raise TimeoutError,
               settled w (opening ++
                          [(Goto target_url, Returned);
                           (WaitForSelector loader_selector, Raised TimeoutError);
                           (Stop, Returned)])
                 (files w) (stdout w) (Some target_url))
           else
            (Raise TimeoutError,
             settled w (opening ++
                        [(Goto target_url, Raised TimeoutError); (Stop, Returned)])
               (files w) (stdout w) None)
          else
            (Raise ConnectionError,
             settled w (opening ++
                        [(Goto target_url, Raised ConnectionError); (Stop, Returned)])
               (files w) (stdout w) None)
        else
          (Raise PageError,
           settled w [(Start, Returned); (Launch, Returned);
                      (NewPage, Raised PageError); (Stop, Returned)]
             (files w) (stdout w) (location w))
      else
        (Raise LaunchError,
         settled w [(Start, Returned); (Launch, Raised LaunchError); (Stop, Returned)]
           (files w) (stdout w) (location w))
    else
      (Raise DriverError,
       settled w [(Start, Raised DriverError)] (files w) (stdout w) (location w)).
Proof.
  destruct w as [f out err hs loc lg av ev].
  unfold run, async_with_playwright, loader_shows, page_loads, opening.
  destruct (driver_starts env); [|reflexivity].
  unfold mbind, M_bind, chromium_launch, new_page, goto, wait_for_selector,
    screenshot, print, close, awaited, granted.
  destruct (launches env); [|tidy].
  destruct (opens_page env); [|tidy].
  destruct (listening env target_url) eqn:Hup;
    unfold target_url in Hup; rewrite Hup; [|tidy].
  unfold target_url.
  destruct (loaded_in_time env _ _); [|tidy].
  unfold loader_selector.
  cbv [seen_at_a_poll logged with_log with_location with_handles
       files stdout stderr handles location log argv environ].
  destruct (existsb _ _); [|tidy].
  unfold output_path.
  destruct (captures env _) as [data|]; [|tidy].
  destruct (closes env); tidy.
Qed.

(** The nine courses, each on an environment that takes it. *)
Example run_lounge_up :
  (run lounge_up boot).1 = Ok tt /\
  stdout (run lounge_up boot).2 = ["Captured loading_verification.png"] /\
  handles (run lounge_up boot).2 = [].
Proof. repeat split. Qed.

Example run_no_driver : (run no_driver boot).1 = Raise DriverError.
Proof. reflexivity. Qed.

Example run_no_chromium : (run no_chromium boot).1 = Raise LaunchError.
Proof. reflexivity. Qed.

Example run_no_page : (run no_page boot).1 = Raise PageError.
Proof. reflexivity. Qed.

Example run_lounge_down : (run lounge_down boot).1 = Raise ConnectionError.
Proof. reflexivity. Qed.

Example run_no_loader :
  (run no_loader boot).1 = Raise TimeoutError /\
  last (removelast (trace no_loader)) =
    Some (WaitForSelector "text=LOADING", Raised TimeoutError).
Proof. split; reflexivity. Qed.

Example run_lounge_hangs :
  (run lounge_hangs boot).1 = Raise TimeoutError /\
  last (removelast (trace lounge_hangs)) =
    Some (Goto "http://localhost:8081", Raised TimeoutError).
Proof. split; reflexivity. Qed.

Example run_no_capture : (run no_capture boot).1 = Raise ScreenshotError.
Proof. reflexivity. Qed.

Example run_stuck_browser :
  (run stuck_browser boot).1 = Raise CloseError /\
  stdout (run stuck_browser boot).2 = ["Captured loading_verification.png"] /\
  handles (run stuck_browser boot).2 = [].
Proof. repeat split. Qed.

(** How a run ends and what it logs do not depend on the world it starts in. *)
Lemma run_verdict (env : Env) (w : World) : (run env w).1 = verdict env.
Proof.
  unfold verdict. rewrite !run_unfold.
  repeat case_match; reflexivity.
Qed.

Lemma run_log (env : Env) (w : World) : log (run env w).2 = log w ++ trace env.
Proof.
  unfold trace. rewrite !run_unfold.
  repeat case_match; reflexivity.
Qed.

(** What a run leaves alone. *)
Lemma run_keeps (env : Env) (w : World) :
  handles (run env w).2 = handles w /\ stderr (run env w).2 = stderr w /\
  argv (run env w).2 = argv w /\ environ (run env w).2 = environ w.
Proof.
  rewrite run_unfold. repeat case_match; repeat split; reflexivity.
Qed.

(** Every run takes one of the nine courses. *)
Lemma run_course (env : Env) : (verdict env, trace env) ∈ courses.
Proof.
  unfold verdict, trace, courses. rewrite run_unfold.
  repeat case_match; cbn [fst snd settled log boot app];
    repeat first [ apply list_elem_of_here | apply list_elem_of_further ].
Qed.

Ltac by_computation := apply (bool_decide_unpack _); vm_compute; exact I.

(** A call of another kind than those of the log is not in it. *)
Ltac not_logged :=
  let Hin := fresh "Hin" in
  intros ? ? Hin;
  repeat (apply elem_of_cons in Hin as [Hin|Hin]; [discriminate|]);
  apply elem_of_nil in Hin; exact Hin.

(** What a run writes and prints goes with the screenshot call: either it
    returned, and the image is saved and the line printed, or it did not,
    and files and terminal are as they were. *)
Lemma run_output (env : Env) (w : World) :
  ((Screenshot output_path, Returned) ∈ trace env /\
   exists data, captures env output_path = Some data /\
     files (run env w).2 = <[output_path := data]> (files w) /\
     stdout (run env w).2 = stdout w ++ [confirmation]) \/
  (((Screenshot output_path, Returned) ∉ trace env) /\
   files (run env w).2 = files w /\ stdout (run env w).2 = stdout w).
Proof.
  unfold trace. rewrite !run_unfold.
  destruct (captures env output_path) as [data|] eqn:Hshot.
  - repeat case_match;
      first [ right; split; [by_computation | split; reflexivity]
            | left; split; [by_computation | exists data; repeat split; reflexivity] ].
  - right. repeat case_match; (split; [by_computation | split; reflexivity]).
Qed.

(** [in_order] read as a statement about any two places of the log. *)
Lemma in_order_spec (t : list entry) :
  in_order t = true ->
  forall pre c o post, t = pre ++ (c, o) :: post -> is_step c = true ->
    Forall (fun e => e.2 = Returned) pre.
Proof.
  induction t as [|[c0 o0] t IH]; intros Hord pre c o post Heq Hstep.
  - destruct pre; discriminate.
  - destruct pre as [|e pre]; [constructor|].
    cbn in Heq. injection Heq as He Ht. subst e t.
    destruct o0 as [|err]; cbn in Hord.
    + constructor; [reflexivity | eauto].
    + apply andb_prop in Hord as [Hnone _].
      rewrite forallb_forall in Hnone.
      specialize (Hnone (c, o) (in_elt _ _ _)).
      cbn in Hnone. rewrite Hstep in Hnone. discriminate.
Qed.

(** * Properties of the run *)

(** The wait sees the loader exactly when it is on the page at one of its
    looks before the timeout. *)
Lemma loader_shows_iff (env : Env) : loader_shows env = true <-> loader_seen env.
Proof.
  unfold loader_shows, loader_seen, seen_at_a_poll.
  rewrite existsb_exists. split.
  - intros (t & Hin & Hboth). apply andb_prop in Hboth as [Hlt Hvis].
    exists t. rewrite list_elem_of_In. apply N.ltb_lt in Hlt. auto.
  - intros (t & Hin & Hlt & Hvis). exists t.
    rewrite <- list_elem_of_In. split; [exact Hin|].
    apply andb_true_intro. split; [apply N.ltb_lt, Hlt | exact Hvis].
Qed.

(** What the wait sees was on the page within the timeout. *)
Lemma loader_seen_in_time (env : Env) : loader_seen env -> loader_in_time env.
Proof.
  intros (t & _ & Hlt & Hvis). exists t. split; [lia | exact Hvis].
Qed.

Lemma loader_shows_not (env : Env) : ~ loader_in_time env -> loader_shows env = false.
Proof.
  intros Hnot. destruct (loader_shows env) eqn:Hshows; [|reflexivity].
  apply loader_shows_iff, loader_seen_in_time in Hshows. contradiction.
Qed.

Lemma page_loads_iff (env : Env) : page_loads env = true <-> loaded env.
Proof.
  unfold page_loads, loaded, loaded_in_time.
  destruct (loads_at env target_url) as [t|].
  - rewrite N.leb_le. split.
    + intros Hle. exists t. split; [reflexivity | exact Hle].
    + intros (t' & Heq & Hle). injection Heq as ->. exact Hle.
  - split; [discriminate|]. intros (t' & Heq & _). discriminate.
Qed.

(** The status of the process tells how the routine ended. *)
Lemma main_unfold (env : Env) (w : World) :
  main env w =
    match (run env w).1 with
    | Ok _ => (0%Z, (run env w).2)
    | Raise e => (1%Z, with_stderr (stderr w ++ [e]) (run env w).2)
    end.
Proof.
  unfold main. destruct (run_keeps env w) as (_ & Herr & _).
  destruct (run env w) as [[[]|e] w']; cbn [fst snd] in *; [reflexivity|].
  rewrite Herr. reflexivity.
Qed.




(** C2.  With the browser and its page there for the routine, as its
    environment is to provide: when the server answers at the address but the
    loader text is not on the page at any moment within the default timeout,
    the routine ends with a timeout error, raised by the wait, or by the
    navigation when the page does not load either; no screenshot call is
    made and the files are as they were. *)
Theorem wait_times_out (env : Env) (w : World) :
  acquires env -> reachable env -> ~ loader_in_time env ->
  (run env w).1 = Raise TimeoutError /\
  (forall path o, (Screenshot path, o) ∉ trace env) /\
  files (run env w).2 = files w /\
  stdout (run env w).2 = stdout w /\
  (log (run env w).2 =
     log w ++ opening ++
       [(Goto target_url, Returned);
        (WaitForSelector loader_selector, Raised TimeoutError);
        (Stop, Returned)] \/
   log (run env w).2 =
     log w ++ opening ++ [(Goto target_url, Raised TimeoutError); (Stop, Returned)]).
Proof.
  intros (Hdrv & Hlaunch & Hpage) Hup Hnever.
  apply loader_shows_not in Hnever. unfold reachable in Hup.
  unfold trace.
  rewrite !run_unfold, Hdrv, Hlaunch, Hpage, Hup, Hnever.
  destruct (page_loads env); cbn [fst snd settled files stdout log boot app opening];
    (split; [reflexivity|]; split; [not_logged|];
     do 2 (split; [reflexivity|])); [left | right]; reflexivity.
Qed.

Lemma wait_times_out_late_loader :
  ((run late_loader boot).1 = Raise TimeoutError /\
   (WaitForSelector loader_selector, Raised TimeoutError) ∈ trace late_loader /\
   files (run late_loader boot).2 = files boot) /\
  ((run lounge_hangs boot).1 = Raise TimeoutError /\
   (Goto target_url, Raised TimeoutError) ∈ trace lounge_hangs /\
   files (run lounge_hangs boot).2 = files boot).
Proof.
  assert (Hlate : ~ loader_in_time late_loader).
  { intros (t & Hle & Hvis). cbn in Hvis. apply N.leb_le in Hvis.
    unfold default_timeout in Hle. lia. }
  assert (Hnone : ~ loader_in_time lounge_hangs).
  { intros (t & _ & Hvis). discriminate Hvis. }
  destruct (wait_times_out late_loader boot) as (Hends & _ & Hfiles & _);
    [repeat split | reflexivity | exact Hlate |].
  destruct (wait_times_out lounge_hangs boot) as (Hends' & _ & Hfiles' & _);
    [repeat split | reflexivity | exact Hnone |].
  split; (split; [assumption | split; [by_computation | assumption]]).
Defined.

(** C3.  With the browser and its page there for the routine, as its
    environment is to provide: when nothing answers at the address, the
    navigation raises the connection error and the routine ends with it;
    after it only the block of the driver is left, so no wait, screenshot,
    print or close is made, and files and terminal are as they were. *)
Theorem navigation_fails (env : Env) (w : World) :
  acquires env -> ~ reachable env ->
  (run env w).1 = Raise ConnectionError /\
  log (run env w).2 =
    log w ++ opening ++ [(Goto target_url, Raised ConnectionError); (Stop, Returned)] /\
  files (run env w).2 = files w /\
  stdout (run env w).2 = stdout w.
Proof.
  intros (Hdrv & Hlaunch & Hpage) Hdown.
  apply not_true_is_false in Hdown.
  rewrite run_unfold, Hdrv, Hlaunch, Hpage, Hdown.
  repeat split.
Qed.

Lemma navigation_fails_lounge_down :
  (run lounge_down boot).1 = Raise ConnectionError /\
  log (run lounge_down boot).2 =
    log boot ++ opening ++ [(Goto target_url, Raised ConnectionError); (Stop, Returned)] /\
  files (run lounge_down boot).2 = files boot /\
  stdout (run lounge_down boot).2 = stdout boot.
Proof.
  assert (Hdown : ~ reachable lounge_down) by (unfold reachable; vm_compute; discriminate).
  apply (navigation_fails lounge_down boot); [repeat split | exact Hdown].
Defined.

(** C4.  However the routine ends, what it acquired is released: the
    resources held after the run are those held before it, so a fresh process
    ends with none, and the block of the driver, once entered, is always left
    ([Stop] is the last call logged). *)
Theorem resources_released (env : Env) (w : World) :
  handles (run env w).2 = handles w /\
  handles (main env w).2 = handles w /\
  handles (main env boot).2 = [] /\
  ((Start, Returned) ∈ trace env -> last (trace env) = Some (Stop, Returned)).
Proof.
  assert (Hmain : forall w0, handles (main env w0).2 = handles w0).
  { intros w0. rewrite main_unfold.
    destruct (run_keeps env w0) as (Hh & _).
    destruct (run env w0).1; exact Hh. }
  split; [apply run_keeps|].
  split; [apply Hmain|].
  split; [apply Hmain|].
  assert (Hall : Forall (fun p : result unit * list entry =>
            (Start, Returned) ∈ p.2 -> last p.2 = Some (Stop, Returned)) courses)
    by by_computation.
  rewrite Forall_forall in Hall.
  exact (Hall _ (run_course env)).
Qed.

(** When the environment lets every call before the closing of the browser
    through, the run makes them all and prints its line. *)
Lemma run_through_print (env : Env) (w : World) :
  acquires env -> reachable env -> loaded env -> loader_seen env ->
  is_Some (captures env output_path) ->
  steps (trace env) = six_steps /\
  Forall (fun c => (c, Returned) ∈ trace env)
    [Start; Launch; NewPage; Goto target_url; WaitForSelector loader_selector;
     Screenshot output_path; PrintLine confirmation] /\
  stdout (run env w).2 = stdout w ++ [confirmation].
Proof.
  intros (Hdrv & Hlaunch & Hpage) Hup Hloaded Hseen [data Hshot].
  apply page_loads_iff in Hloaded. apply loader_shows_iff in Hseen.
  unfold reachable in Hup. unfold trace.
  rewrite !run_unfold, Hdrv, Hlaunch, Hpage, Hup, Hloaded, Hseen, Hshot.
  destruct (closes env); cbn [fst snd settled files stdout log boot app opening];
    (split; [reflexivity | split; [by_computation | reflexivity]]).
Qed.

(** The shape of every log: a first part of the six steps, no call twice,
    nothing after a call that raised but the end of the block. *)
Lemma steps_shape (env : Env) (w : World) :
  log (run env w).2 = log w ++ trace env /\
  steps (trace env) `prefix_of` six_steps /\
  NoDup (trace env).*1 /\
  (forall pre c o post, trace env = pre ++ (c, o) :: post -> is_step c = true ->
     Forall (fun e => e.2 = Returned) pre) /\
  ((run env w).1 = Ok tt -> steps (trace env) = six_steps).
Proof.
  split; [apply run_log|].
  rewrite run_verdict.
  assert (Hall : Forall (fun p : result unit * list entry =>
            steps p.2 `prefix_of` six_steps /\ NoDup p.2.*1 /\
            in_order p.2 = true /\ (p.1 = Ok tt -> steps p.2 = six_steps)) courses)
    by by_computation.
  rewrite Forall_forall in Hall.
  destruct (Hall _ (run_course env)) as (Hpre & Hnodup & Hord & Hfull).
  repeat split; [exact Hpre | exact Hnodup | | exact Hfull].
  apply in_order_spec, Hord.
Qed.

(** C5.  The steps of a run are, in this order and each at most once:
    launch the browser, open a page, navigate to the address, wait for the
    selector, write the screenshot, close the browser.  The routine is always
    entered, and every call that returns is followed by the next one of the
    script, so a run goes on as far as the environment lets it: when
    every call before the closing of the browser goes through, all six steps
    are made.  A run that fails stops at the call that raised, so its steps
    are a first part of the six; a step is only begun when every call before
    it has returned; a run that ends well has made all six. *)
Theorem steps_in_order (env : Env) (w : World) :
  log (run env w).2 = log w ++ trace env /\
  Start ∈ (trace env).*1 /\
  Forall (fun p => (p.1, Returned) ∈ trace env -> p.2 ∈ (trace env).*1) handoffs /\
  steps (trace env) `prefix_of` six_steps /\
  NoDup (trace env).*1 /\
  (forall pre c o post, trace env = pre ++ (c, o) :: post -> is_step c = true ->
     Forall (fun e => e.2 = Returned) pre) /\
  ((run env w).1 = Ok tt -> steps (trace env) = six_steps) /\
  (acquires env -> reachable env -> loaded env -> loader_seen env ->
   is_Some (captures env output_path) ->
   steps (trace env) = six_steps /\
   Forall (fun c => (c, Returned) ∈ trace env)
     [Launch; NewPage; Goto target_url; WaitForSelector loader_selector;
      Screenshot output_path]).
Proof.
  destruct (steps_shape env w) as (Hlog & Hpre & Hnodup & Hord & Hfull).
  assert (Hall : Forall (fun p : result unit * list entry =>
            Start ∈ p.2.*1 /\
            Forall (fun h => (h.1, Returned) ∈ p.2 -> h.2 ∈ p.2.*1) handoffs) courses)
    by by_computation.
  rewrite Forall_forall in Hall.
  destruct (Hall _ (run_course env)) as (Hstart & Hnext). cbn [snd] in *.
  do 7 (split; [assumption|]).
  intros Hacq Hup Hloaded Hseen Hshot.
  destruct (run_through_print env w Hacq Hup Hloaded Hseen Hshot) as (Hsix & Hret & _).
  split; [exact Hsix|].
  rewrite Forall_forall in Hret. rewrite Forall_forall.
  intros c Hin. apply Hret. apply list_elem_of_further.
  change (c ∈ [Launch; NewPage; Goto target_url; WaitForSelector loader_selector;
               Screenshot output_path] ++ [PrintLine confirmation]).
  apply elem_of_app. left. exact Hin.
Qed.

Lemma steps_in_order_lounge_up :
  log (run lounge_up boot).2 = log boot ++ trace lounge_up /\
  steps (trace lounge_up) = six_steps /\
  Forall (fun c => (c, Returned) ∈ trace lounge_up)
    [Launch; NewPage; Goto target_url; WaitForSelector loader_selector;
     Screenshot output_path].
Proof.
  assert (Hacq : acquires lounge_up) by (repeat split).
  assert (Hup : reachable lounge_up) by reflexivity.
  assert (Hloaded : loaded lounge_up).
  { exists 200%N. split; [reflexivity | vm_compute; discriminate]. }
  assert (Hseen : loader_seen lounge_up).
  { exists 0%N. split; [by_computation | split; reflexivity]. }
  assert (Hshot : is_Some (captures lounge_up output_path)) by (eexists; reflexivity).
  destruct (steps_in_order lounge_up boot) as (Hlog & _ & _ & _ & _ & _ & _ & Hgoes).
  split; [exact Hlog | exact (Hgoes Hacq Hup Hloaded Hseen Hshot)].
Defined.

(** A call that raised is found among the errors of the log. *)
Lemma raised_in_raises (t : list entry) (c : call) (e : error) :
  (c, Raised e) ∈ t -> e ∈ raises t.
Proof.
  intros Hin. unfold raises. apply list_elem_of_omap.
  exists (c, Raised e). split; [exact Hin | reflexivity].
Qed.






(** A successful run leaves the image of its screenshot at the output path
    and touches no other file. *)
Lemma success_saves (env : Env) (w : World) :
  verdict env = Ok tt ->
  exists data, captures env output_path = Some data /\
    files (main env w).2 = <[output_path := data]> (files w).
Proof.
  unfold verdict. intros Hok.
  rewrite main_unfold, run_verdict. unfold verdict. rewrite Hok.
  cbn [snd]. revert Hok. rewrite !run_unfold.
  repeat case_match; try discriminate. intros _.
  eexists. split; reflexivity.
Qed.

(** Successful runs add no path once the output path is there. *)
Lemma runs_same_paths (envs : list Env) (w : World) :
  Forall (fun env => verdict env = Ok tt) envs ->
  output_path ∈ dom (files w) ->
  dom (files (runs envs w)) = dom (files w).
Proof.
  intros Hall. revert w.
  induction Hall as [|env envs Hok _ IH]; intros w Hthere; [reflexivity|].
  cbn [runs].
  destruct (success_saves env w Hok) as (data & _ & Hfiles).
  assert (Hdom : dom (files (main env w).2) = dom (files w)).
  { rewrite Hfiles, dom_insert_L.
    apply subseteq_union_1_L, singleton_subseteq_l, Hthere. }
  rewrite IH; [exact Hdom | rewrite Hdom; exact Hthere].
Qed.

(** C8.  Of two successful runs the second writes its image where the first
    wrote its own, in place of it, and to no other path; after any number of
    further successful runs the paths of the files are those after the
    first. *)
Theorem rerun_overwrites (env1 env2 : Env) (more : list Env) (w : World) :
  verdict env1 = Ok tt -> verdict env2 = Ok tt ->
  Forall (fun env => verdict env = Ok tt) more ->
  (exists data1 data2,
     captures env1 output_path = Some data1 /\
     captures env2 output_path = Some data2 /\
     files (runs [env1] w) = <[output_path := data1]> (files w) /\
     files (runs [env1; env2] w) = <[output_path := data2]> (files w)) /\
  dom (files (runs [env1; env2] w)) = dom (files (runs [env1] w)) /\
  dom (files (runs (env1 :: env2 :: more) w)) = dom (files (runs [env1] w)).
Proof.
  intros Hok1 Hok2 Hmore. cbn [runs].
  destruct (success_saves env1 w Hok1) as (data1 & Hshot1 & Hfiles1).
  destruct (success_saves env2 (main env1 w).2 Hok2) as (data2 & Hshot2 & Hfiles2).
  assert (Hthere : output_path ∈ dom (files (main env1 w).2)).
  { rewrite Hfiles1, dom_insert_L. apply elem_of_union_l, elem_of_singleton_2. reflexivity. }
  assert (Hdom : dom (files (main env2 (main env1 w).2).2) = dom (files (main env1 w).2)).
  { rewrite Hfiles2, dom_insert_L.
    apply subseteq_union_1_L, singleton_subseteq_l, Hthere. }
  split; [|split].
  - exists data1, data2. repeat split; try assumption.
    rewrite Hfiles2, Hfiles1. apply insert_insert_eq.
  - exact Hdom.
  - rewrite runs_same_paths; [exact Hdom | exact Hmore | rewrite Hdom; exact Hthere].
Qed.

Lemma rerun_overwrites_lounge :
  dom (files (runs [lounge_up; lounge_slow] boot)) = dom (files (runs [lounge_up] boot)) /\
  dom (files (runs [lounge_up; lounge_slow; lounge_up] boot)) =
    dom (files (runs [lounge_up] boot)).
Proof.
  apply (rerun_overwrites lounge_up lounge_slow [lounge_up] boot).
  - reflexivity.
  - reflexivity.
  - repeat constructor.
Defined.







(** * Further properties of the script *)

(** The process leaves the world of the routine but for the traceback. *)
Lemma main_world (env : Env) (w : World) :
  files (main env w).2 = files (run env w).2 /\
  stdout (main env w).2 = stdout (run env w).2 /\
  handles (main env w).2 = handles (run env w).2 /\
  log (main env w).2 = log (run env w).2.
Proof.
  rewrite main_unfold. destruct (run env w).1; repeat split.
Qed.

(** The errors of a log are the one the run ended with, if it did. *)
Lemma raises_verdict (env : Env) :
  raises (trace env) = match verdict env with Ok _ => [] | Raise e => [e] end.
Proof.
  assert (Hall : Forall (fun p : result unit * list entry =>
            raises p.2 = match p.1 with Ok _ => [] | Raise e => [e] end) courses)
    by by_computation.
  rewrite Forall_forall in Hall.
  exact (Hall _ (run_course env)).
Qed.

(** A run whose screenshot call did not return has failed. *)
Lemma no_screenshot_no_success (env : Env) :
  (Screenshot output_path, Returned) ∉ trace env -> exists e, verdict env = Raise e.
Proof.
  assert (Hall : Forall (fun p : result unit * list entry =>
            (Screenshot output_path, Returned) ∉ p.2 -> is_Some (raises p.2 !! 0)) courses)
    by by_computation.
  rewrite Forall_forall in Hall.
  intros Hnot. apply (Hall _ (run_course env)) in Hnot. cbn [snd] in Hnot.
  rewrite raises_verdict in Hnot.
  destruct (verdict env) as [[]|e]; [destruct Hnot; discriminate | exists e; reflexivity].
Qed.

(** X1.  A run, however it ends, leaves every file other than
    [loading_verification.png] as it was, and so does any sequence of runs. *)
Theorem other_files_untouched (envs : list Env) (env : Env) (w : World) (path : string) :
  path <> output_path ->
  files (main env w).2 !! path = files w !! path /\
  files (runs envs w) !! path = files w !! path.
Proof.
  intros Hother.
  assert (Hone : forall env0 w0, files (main env0 w0).2 !! path = files w0 !! path).
  { intros env0 w0. destruct (main_world env0 w0) as (-> & _).
    destruct (run_output env0 w0) as [(_ & data & _ & -> & _)|(_ & -> & _)];
      [|reflexivity].
    apply lookup_insert_ne. congruence. }
  split; [apply Hone|].
  revert w. induction envs as [|env0 envs IH]; intros w; [reflexivity|].
  cbn [runs]. rewrite IH. apply Hone.
Qed.

Lemma other_files_untouched_notes :
  files (main no_capture (with_files {["notes.txt" := [x68; x69]]} boot)).2 !! "notes.txt" =
    Some [x68; x69] /\
  files (runs [lounge_up; lounge_down; lounge_slow]
           (with_files {["notes.txt" := [x68; x69]]} boot)) !! "notes.txt" =
    Some [x68; x69].
Proof.
  assert (Hother : "notes.txt" <> output_path) by discriminate.
  destruct (other_files_untouched [lounge_up; lounge_down; lounge_slow] no_capture
              (with_files {["notes.txt" := [x68; x69]]} boot) "notes.txt" Hother)
    as [Hone Hmany].
  split.
  - rewrite Hone. reflexivity.
  - rewrite Hmany. reflexivity.
Defined.



(** X3.  A run that fails before its screenshot is saved exits with status
    1 and leaves the files as they were; after a successful run the image of
    that earlier run is therefore still at the output path. *)
Theorem failed_rerun_keeps_image (env1 env2 : Env) (w : World) :
  verdict env1 = Ok tt ->
  (Screenshot output_path, Returned) ∉ trace env2 ->
  (main env2 (runs [env1] w)).1 = 1%Z /\
  files (runs [env1; env2] w) = files (runs [env1] w) /\
  exists data1,
    captures env1 output_path = Some data1 /\
    files (runs [env1; env2] w) !! output_path = Some data1.
Proof.
  intros Hok Hnot. cbn [runs].
  destruct (no_screenshot_no_success env2 Hnot) as (e & Hfail).
  assert (Hsame : files (main env2 (main env1 w).2).2 = files (main env1 w).2).
  { destruct (main_world env2 (main env1 w).2) as (-> & _).
    destruct (run_output env2 (main env1 w).2) as [(Hin & _)|(_ & Hfiles & _)];
      [contradiction | exact Hfiles]. }
  split; [rewrite main_unfold, run_verdict, Hfail; reflexivity|].
  split; [exact Hsame|].
  destruct (success_saves env1 w Hok) as (data1 & Hshot & Hfiles).
  exists data1. split; [exact Hshot|].
  rewrite Hsame, Hfiles. apply lookup_insert_eq.
Qed.

Lemma failed_rerun_keeps_image_lounge :
  (main lounge_down (runs [lounge_up] boot)).1 = 1%Z /\
  files (runs [lounge_up; lounge_down] boot) = files (runs [lounge_up] boot) /\
  exists data1,
    captures lounge_up output_path = Some data1 /\
    files (runs [lounge_up; lounge_down] boot) !! output_path =
      Some data1.
Proof.
  apply (failed_rerun_keeps_image lounge_up lounge_down boot).
  - reflexivity.
  - by_computation.
Defined.

(** X4.  When closing the browser raises, the process exits with status 1
    although the run has saved its image and printed the confirmation; the
    browser is released all the same as the block of the driver is left. *)
Theorem close_error_after_capture (env : Env) (w : World) (e : error) :
  (Close, Raised e) ∈ trace env ->
  (main env w).1 = 1%Z /\
  stderr (main env w).2 = stderr w ++ [e] /\
  (exists data, captures env output_path = Some data /\
     files (main env w).2 !! output_path = Some data) /\
  stdout (main env w).2 = stdout w ++ [confirmation] /\
  handles (main env w).2 = handles w.
Proof.
  intros Hin.
  assert (Hall : Forall (fun p : result unit * list entry =>
            Forall (fun en => en.1 = Close -> en.2 <> Returned ->
                      (Screenshot output_path, Returned) ∈ p.2) p.2) courses)
    by by_computation.
  rewrite Forall_forall in Hall.
  pose proof (Hall _ (run_course env)) as Hshown. cbn [snd] in Hshown.
  rewrite Forall_forall in Hshown.
  specialize (Hshown _ Hin eq_refl). cbn [snd] in Hshown.
  assert (Hsaved : (Screenshot output_path, Returned) ∈ trace env)
    by (apply Hshown; discriminate).
  pose proof (raised_in_raises _ _ _ Hin) as Herr.
  rewrite raises_verdict in Herr.
  destruct (verdict env) as [[]|e'] eqn:Hverdict;
    [apply elem_of_nil in Herr; contradiction|].
  apply list_elem_of_singleton in Herr. subst e'.
  destruct (main_world env w) as (Hfiles & Hout & Hhandles & _).
  rewrite Hfiles, Hout, Hhandles.
  rewrite main_unfold, run_verdict, Hverdict. cbn [fst snd with_stderr stderr].
  do 2 (split; [reflexivity|]).
  destruct (run_output env w) as [(_ & data & Hshot & Hwritten & Hprinted)|(Hnot & _)];
    [|contradiction].
  split; [exists data; split; [exact Hshot | rewrite Hwritten; apply lookup_insert_eq]|].
  split; [exact Hprinted | apply run_keeps].
Qed.

Lemma close_error_after_capture_stuck_browser :
  (main stuck_browser boot).1 = 1%Z /\
  stderr (main stuck_browser boot).2 = stderr boot ++ [CloseError] /\
  (exists data, captures stuck_browser output_path = Some data /\
     files (main stuck_browser boot).2 !! output_path = Some data) /\
  stdout (main stuck_browser boot).2 = stdout boot ++ [confirmation] /\
  handles (main stuck_browser boot).2 = handles boot.
Proof.
  apply (close_error_after_capture stuck_browser boot CloseError). by_computation.
Defined.

(** X5.  A run fails exactly when one of its calls raised, and then that
    call is the only one to raise: the errors of the log are none for a run
    that ends well and the one error the run ends with otherwise. *)
Theorem one_error_per_failure (env : Env) (w : World) :
  raises (drop (length (log w)) (log (run env w).2)) =
    match (run env w).1 with
    | Ok _ => []
    | Raise e => [e]
    end.
Proof.
  rewrite run_log, drop_app_length, run_verdict. apply raises_verdict.
Qed.

(** X6.  Runs one after the other, whatever their outcomes: no resource
    stays held, the log is the logs of the runs in order, and the tracebacks
    are the errors of the failed runs in order. *)
Theorem runs_in_sequence (envs : list Env) (w : World) :
  handles (runs envs w) = handles w /\
  log (runs envs w) = log w ++ concat (trace <$> envs) /\
  stderr (runs envs w) = stderr w ++ concat ((fun env => raises (trace env)) <$> envs).
Proof.
  revert w. induction envs as [|env envs IH]; intros w.
  - cbn. rewrite !app_nil_r. repeat split.
  - cbn [runs fmap list_fmap concat].
    destruct (IH (main env w).2) as (Hh & Hl & He).
    rewrite Hh, Hl, He.
    destruct (main_world env w) as (_ & _ & -> & ->).
    destruct (run_keeps env w) as (-> & Herr & _).
    rewrite run_log, !app_assoc.
    repeat split. do 2 f_equal.
    rewrite main_unfold, run_verdict, raises_verdict.
    destruct (verdict env); cbn [snd with_stderr stderr];
      [rewrite Herr, app_nil_r|]; reflexivity.
Qed.
